(** * ImportTab: the import panel of the unified input

    A shallow embedding of
    [frontend/src/components/unified-input/tabs/ImportTab.tsx].

    The component owns five pieces of React state ([code], [url], [stack],
    [isDraggingFile], [isScraping]) and a handful of event handlers.  Each
    handler is embedded as a small program over the actions the source
    performs (state setters, toasts, the [importFromCode] callback) and the
    promises it awaits ([fetch], [response.json()], [file.text()]).  A
    handler closes over the values of the render it belongs to, so it is a
    function of the state it was created from; what it does afterwards is
    the program it returns. *)

From Stdlib Require Import String Ascii List Bool Arith ZArith QArith_base Lia.
Import ListNotations.
Local Close Scope Q_scope.
Local Open Scope nat_scope.
Local Open Scope string_scope.
Local Open Scope list_scope.

Set Warnings "-register-all".

Set Implicit Arguments.

(** ** JavaScript values and built-ins used by the component *)

Module JS.

(** Strings are Stdlib strings, one character per UTF-16 code unit; this
    covers the code units below 256. *)

(** What [JSON.parse] can produce.  An object keeps its own properties as
    an association list read from the front.  Numbers are kept as the
    rational they denote: the component only observes their [typeof] and
    whether they are zero. *)
Inductive Json : Type :=
| JNull
| JBool (b : bool)
| JNumber (q : Q)
| JString (s : string)
| JArray (items : list Json)
| JObject (props : list (string * Json)).

(** The result of reading a property: [None] is [undefined]. *)
Definition Value : Type := option Json.

(** A value caught by [catch (e)]: an [Error] instance with its
    [message], or anything else. *)
Inductive Thrown : Type :=
| ErrorObject (message : string)
| NotAnError.

(** How a promise settles. *)
Inductive Settled (A : Type) : Type :=
| Fulfilled (a : A)
| Rejected (e : Thrown).
Arguments Rejected {A} e.

(** ToBoolean. *)
Definition truthy_json (j : Json) : bool :=
  match j with
  | JNull => false
  | JBool b => b
  | JNumber q => negb (Qnum q =? 0)%Z
  | JString s => negb (s =? "")
  | JArray _ => true
  | JObject _ => true
  end.

Definition truthy (v : Value) : bool :=
  match v with
  | None => false
  | Some j => truthy_json j
  end.

(** [typeof v === "string"]. *)
Definition typeof_is_string (v : Value) : bool :=
  match v with
  | Some (JString _) => true
  | _ => false
  end.

(** [v || fallback], for a truthy [fallback]. *)
Definition or_else (v : Value) (fallback : Json) : Json :=
  match v with
  | Some j => if truthy_json j then j else fallback
  | None => fallback
  end.

Fixpoint lookup (k : string) (props : list (string * Json)) : Value :=
  match props with
  | [] => None
  | (k', j) :: rest => if k =? k' then Some j else lookup k rest
  end.

(** The two syntactic forms under which the component reads a property. *)
Inductive Access : Type :=
| Member (k : string)          (* [base.k] *)
| Destructure (k : string).    (* [const { k } = base] *)

Definition key (a : Access) : string :=
  match a with Member k | Destructure k => k end.

(** ** String.prototype.trim *)

(** WhiteSpace and LineTerminator code units below 256: TAB, LF, VT, FF,
    CR, SP and NBSP. *)
Definition is_space (c : ascii) : bool :=
  let n := nat_of_ascii c in
  (Nat.leb 9 n && Nat.leb n 13) || Nat.eqb n 32 || Nat.eqb n 160.

Fixpoint trimStart (s : string) : string :=
  match s with
  | EmptyString => EmptyString
  | String c rest => if is_space c then trimStart rest else s
  end.

Fixpoint trimEnd (s : string) : string :=
  match s with
  | EmptyString => EmptyString
  | String c rest =>
      let rest' := trimEnd rest in
      if is_space c && (rest' =? "") then EmptyString else String c rest'
  end.

Definition trim (s : string) : string := trimEnd (trimStart s).

End JS.
Import JS.

(** ** The browser objects the handlers receive *)

(** A [Response], as far as the component looks at it: [ok], [statusText]
    and how the promise of [json()] settles. *)
Record Response : Type := mkResponse {
  ok : bool;
  statusText : string;
  json : Settled Json
}.

(** A dropped [File]: its name and how the promise of [text()] settles. *)
Record File : Type := mkFile {
  name : string;
  text : Settled string
}.

(** The argument of [fetch]: the address and the [init] object.  [body]
    holds the value handed to [JSON.stringify]. *)
Record Request : Type := mkRequest {
  address : string;
  method : string;
  headers : list (string * string);
  body : Json
}.

Record KeyboardEvent : Type := mkKeyboardEvent {
  key_name : string;
  metaKey : bool;
  ctrlKey : bool
}.

(** The promises a handler awaits, and what each resolves to. *)
Inductive Call : Type :=
| Fetch (req : Request)
| ResponseJson (r : Response)
| FileText (f : File).

Definition Result (c : Call) : Type :=
  match c with
  | Fetch _ => Response
  | ResponseJson _ => Json
  | FileText _ => string
  end.

(** [response.json()] and [file.text()] settle as the object says; what a
    [fetch] settles to is up to the network. *)
Definition settle (net : Request -> Settled Response) (c : Call)
  : Settled (Result c) :=
  match c with
  | Fetch req => net req
  | ResponseJson r => json r
  | FileText f => text f
  end.

(** ** Sample data for the examples *)

Module Sample.

Inductive Stack : Type :=
| html_tailwind
| react_tailwind.

Definition backend : string := "http://127.0.0.1:7001".

(** The [TypeError] texts, worded as V8 words them. *)
Definition engine_message (a : Access) : string :=
  match a with
  | Member k =>
      "Cannot read properties of null (reading '" ++ k ++ "')"
  | Destructure k =>
      "Cannot destructure property '" ++ k ++
      "' of '(intermediate value)' as it is null."
  end.

Definition page : File := mkFile "page.html" (Fulfilled "<p>hi</p>").

Definition enter_with_ctrl : KeyboardEvent := mkKeyboardEvent "Enter" false true.

(** A network that is down, and one that answers every request with
    [response]. *)
Definition offline : Request -> Settled Response :=
  fun _ => Rejected (ErrorObject "Failed to fetch").

Definition answers (response : Response) : Request -> Settled Response :=
  fun _ => Fulfilled response.

End Sample.

Section ImportTab.

(** Declared outside this file: the [Stack] enumeration of [lib/stacks]
    with its member [HTML_TAILWIND], and [HTTP_BACKEND_URL] of [config]. *)
Variable Stack : Type.
Variable HTML_TAILWIND : Stack.
Variable HTTP_BACKEND_URL : string.

(** The text the JavaScript engine gives the [TypeError] it raises when a
    property is read from [null]. *)
Variable type_error_message : Access -> string.

(** Reading a property that no built-in prototype defines (true of
    [detail] and [content]): own properties of an object, [undefined] on
    any other value, and a [TypeError] on [null]. *)
Definition read (a : Access) (base : Json) : Thrown + Value :=
  match base with
  | JNull => inl (ErrorObject (type_error_message a))
  | JObject props => inr (lookup (key a) props)
  | _ => inr None
  end.

(** ** Component state *)

Record State : Type := mkState {
  code : string;
  url : string;
  stack : option Stack;
  isDraggingFile : bool;
  isScraping : bool
}.

(** The [useState] initial values. *)
Definition initial : State :=
  mkState "" "" (Some HTML_TAILWIND) false false.

(** What a handler does besides awaiting: the state setters, the toasts,
    the [importFromCode] prop, [e.preventDefault()] and the [setTimeout]
    that refocuses the textarea. *)
Inductive Action : Type :=
| SetCode (v : string)
| SetUrl (v : string)
| SetStack (v : Stack)
| SetIsDraggingFile (b : bool)
| SetIsScraping (b : bool)
| ToastError (message : Json)
| ToastSuccess (message : string)
| ImportFromCode (code : string) (stack : Stack)
| PreventDefault
| SetTimeoutFocus (ms : nat).

Definition apply (a : Action) (s : State) : State :=
  match a with
  | SetCode v => mkState v (url s) (stack s) (isDraggingFile s) (isScraping s)
  | SetUrl v => mkState (code s) v (stack s) (isDraggingFile s) (isScraping s)
  | SetStack v => mkState (code s) (url s) (Some v) (isDraggingFile s) (isScraping s)
  | SetIsDraggingFile b => mkState (code s) (url s) (stack s) b (isScraping s)
  | SetIsScraping b => mkState (code s) (url s) (stack s) (isDraggingFile s) b
  | _ => s
  end.

(** ** Handler programs *)

(** A handler body: it returns, throws, performs an action and goes on, or
    awaits a promise and goes on with what the promise settled to. *)
Inductive Prog (A : Type) : Type :=
| Ret (a : A)
| Throw (e : Thrown)
| Do (a : Action) (k : Prog A)
| Await (c : Call) (k : Settled (Result c) -> Prog A).
Arguments Throw {A} e.

Fixpoint bind {A B : Type} (p : Prog A) (f : A -> Prog B) : Prog B :=
  match p with
  | Ret a => f a
  | Throw e => Throw e
  | Do a k => Do a (bind k f)
  | Await c k => Await c (fun x => bind (k x) f)
  end.

Notation "x <- p ;; q" := (bind p (fun x => q))
  (at level 61, p at next level, right associativity).
Notation "p ;; q" := (bind p (fun _ => q))
  (at level 61, right associativity).

(** [try { p } catch (e) { h e }]. *)
Fixpoint try_catch {A : Type} (p : Prog A) (h : Thrown -> Prog A) : Prog A :=
  match p with
  | Ret a => Ret a
  | Throw e => h e
  | Do a k => Do a (try_catch k h)
  | Await c k => Await c (fun x => try_catch (k x) h)
  end.

(** [try { p } finally { f }]: [f] runs on every way out of [p], which
    then completes as [p] did. *)
Fixpoint finally {A : Type} (p : Prog A) (f : Prog unit) : Prog A :=
  match p with
  | Ret a => f ;; Ret a
  | Throw e => f ;; Throw e
  | Do a k => Do a (finally k f)
  | Await c k => Await c (fun x => finally (k x) f)
  end.

Definition act (a : Action) : Prog unit := Do a (Ret tt).

(** [await c]: the fulfilment value, or the rejection rethrown. *)
Definition await (c : Call) : Prog (Result c) :=
  Await c (fun x =>
    match x with
    | Fulfilled v => Ret v
    | Rejected e => Throw e
    end).

(** A property read inside a handler. *)
Definition get (a : Access) (base : Json) : Prog Value :=
  match read a base with
  | inl e => Throw e
  | inr v => Ret v
  end.

(** ** Running a handler *)

Inductive Event : Type :=
| Did (a : Action)
| Called (c : Call).

Record Run (A : Type) : Type := mkRun {
  final : State;
  trace : list Event;
  result : Thrown + A
}.

(** To completion, every awaited promise settling as [settle net] says and
    nothing else touching the state meanwhile. *)
Fixpoint run {A : Type} (net : Request -> Settled Response)
  (p : Prog A) (s : State) : Run A :=
  match p with
  | Ret a => mkRun s [] (inr a)
  | Throw e => mkRun s [] (inl e)
  | Do a k =>
      let r := run net k (apply a s) in
      mkRun (final r) (Did a :: trace r) (result r)
  | Await c k =>
      let r := run net (k (settle net c)) s in
      mkRun (final r) (Called c :: trace r) (result r)
  end.

(** Up to the first [await], where the handler gives control back. *)
Inductive Stop (A : Type) : Type :=
| Finished (r : Thrown + A)
| Suspended (c : Call) (k : Settled (Result c) -> Prog A).

Fixpoint advance {A : Type} (p : Prog A) (s : State) : State * Stop A :=
  match p with
  | Ret a => (s, Finished (inr a))
  | Throw e => (s, Finished (inl e))
  | Do a k => advance k (apply a s)
  | Await c k => (s, Suspended c k)
  end.

(** ** The handlers of the component *)

Definition toast_error (message : string) : Prog unit :=
  act (ToastError (JString message)).

(** [doImport], the [onClick] of the Import Code button. *)
Definition doImport (s : State) : Prog unit :=
  if code s =? "" then
    toast_error "Please paste in some code"
  else
    match stack s with
    | None => toast_error "Please select your stack"
    | Some st => act (ImportFromCode (code s) st)
    end.

(** The argument of the one [fetch] of [doScrape]. *)
Definition scrape_request (trimmedUrl : string) : Request :=
  mkRequest (HTTP_BACKEND_URL ++ "/api/scrape-url")
    "POST"
    [("Content-Type", "application/json")]
    (JObject [("url", JString trimmedUrl)]).

(** Past [typeof content === "string"] the value is a string. *)
Definition as_string (v : Value) : string :=
  match v with
  | Some (JString c) => c
  | _ => ""
  end.

(** What the [try] block of [doScrape] does with the response once
    [fetch] has resolved. *)
Definition handle_response (response : Response) : Prog unit :=
  if negb (ok response) then
    err <- try_catch (await (ResponseJson response))
             (fun _ => Ret (JObject [("detail", JString (statusText response))])) ;;
    detail <- get (Member "detail") err ;;
    act (ToastError (or_else detail (JString "Failed to scrape URL")))
  else
    parsed <- await (ResponseJson response) ;;
    content <- get (Destructure "content") parsed ;;
    if negb (truthy content) || negb (typeof_is_string content) then
      toast_error "Invalid response from server"
    else
      act (SetCode (as_string content)) ;;
      act (ToastSuccess
        "Full HTML scraped. Review below and click Import Code when ready.").

(** The body of the [try] block of [doScrape]. *)
Definition scrape_body (trimmedUrl : string) : Prog unit :=
  response <- await (Fetch (scrape_request trimmedUrl)) ;;
  handle_response response.

(** The [catch (e)] block of [doScrape]. *)
Definition scrape_catch (e : Thrown) : Prog unit :=
  toast_error
    match e with
    | ErrorObject message => message
    | NotAnError => "Failed to scrape URL"
    end.

(** [doScrape], the [onClick] of the Scrape HTML button. *)
Definition doScrape (s : State) : Prog unit :=
  let trimmedUrl := trim (url s) in
  if trimmedUrl =? "" then
    toast_error "Please enter a URL to scrape"
  else
    act (SetIsScraping true) ;;
    finally (try_catch (scrape_body trimmedUrl) scrape_catch)
      (act (SetIsScraping false)).

(** [handleKeyDown], the [onKeyDown] of the textarea. *)
Definition handleKeyDown (e : KeyboardEvent) (s : State) : Prog unit :=
  if (key_name e =? "Enter") && (metaKey e || ctrlKey e) then
    act PreventDefault ;;
    doImport s
  else
    Ret tt.

(** The [onDrop] option of [useDropzone]. *)
Definition onDrop (acceptedFiles : list File) : Prog unit :=
  act (SetIsDraggingFile false) ;;
  match nth_error acceptedFiles 0 with
  | None => Ret tt
  | Some file =>
      contents <- await (FileText file) ;;
      act (SetCode contents) ;;
      act (SetTimeoutFocus 50)
  end.

(** What the user can do to the panel, and the handler each event runs.
    Typing or pasting into the textarea is [ChangeCode]. *)
Inductive UserEvent : Type :=
| ChangeCode (v : string)
| ChangeUrl (v : string)
| SelectStack (config : Stack)
| DragEnter
| DragLeave
| Drop (acceptedFiles : list File)
| ClickScrape
| ClickImport
| KeyDown (e : KeyboardEvent).

Definition handler (ev : UserEvent) (s : State) : Prog unit :=
  match ev with
  | ChangeCode v => act (SetCode v)
  | ChangeUrl v => act (SetUrl v)
  | SelectStack config => act (SetStack config)
  | DragEnter => act (SetIsDraggingFile true)
  | DragLeave => act (SetIsDraggingFile false)
  | Drop acceptedFiles => onDrop acceptedFiles
  | ClickScrape => doScrape s
  | ClickImport => doImport s
  | KeyDown e => handleKeyDown e s
  end.

(** A handler started from the state of the render it closes over. *)
Definition fire (net : Request -> Settled Response) (ev : UserEvent)
  (s : State) : Run unit :=
  run net (handler ev s) s.

(** ** The panel over time

    Handlers run one at a time, each up to its next [await]; a handler that
    awaits stays in flight until its promise settles, and meanwhile any
    other event may be handled.  The Scrape HTML button is disabled while
    [isScraping] is set or the URL is blank; [doScrape] itself does not
    check the flag, and the steps below let it start at any time. *)

Record Task : Type := mkTask {
  origin : UserEvent;
  waiting : Call;
  resume : Settled (Result waiting) -> Prog unit
}.

Record Session : Type := mkSession {
  state : State;
  inflight : list Task
}.

Definition park (ev : UserEvent) (now : State * Stop unit)
  (others : list Task) : Session :=
  match snd now with
  | Finished _ => mkSession (fst now) others
  | Suspended c k => mkSession (fst now) (others ++ [mkTask ev c k])
  end.

Inductive step : Session -> Session -> Prop :=
| step_event (ev : UserEvent) (s : State) (tasks : list Task) :
    step (mkSession s tasks)
         (park ev (advance (handler ev s) s) tasks)
| step_settle (net : Request -> Settled Response) (s : State)
    (before : list Task) (t : Task) (after : list Task) :
    step (mkSession s (before ++ t :: after))
         (park (origin t)
            (advance (resume t (settle net (waiting t))) s)
            (before ++ after)).

Inductive reachable : Session -> Prop :=
| reachable_mount : reachable (mkSession initial [])
| reachable_step (a b : Session) : reachable a -> step a b -> reachable b.

Definition is_scrape (ev : UserEvent) : bool :=
  match ev with
  | ClickScrape => true
  | _ => false
  end.

(** ** Properties of handler programs *)

(** Every event the program can emit, however its promises settle,
    passes [allowed]. *)
Fixpoint only (allowed : Event -> bool) {A : Type} (p : Prog A) : Prop :=
  match p with
  | Ret _ => True
  | Throw _ => True
  | Do a k => allowed (Did a) = true /\ only allowed k
  | Await c k => allowed (Called c) = true /\ forall x, only allowed (k x)
  end.

(** No exception leaves the program. *)
Fixpoint never_throws {A : Type} (p : Prog A) : Prop :=
  match p with
  | Ret _ => True
  | Throw _ => False
  | Do _ k => never_throws k
  | Await _ k => forall x, never_throws (k x)
  end.

(** The program returns normally with [isScraping] false, whatever the
    state it is resumed in after each [await]. *)
Fixpoint ends_idle (p : Prog unit) (s : State) : Prop :=
  match p with
  | Ret _ => isScraping s = false
  | Throw _ => False
  | Do a k => ends_idle k (apply a s)
  | Await _ k => forall x s', ends_idle (k x) s'
  end.

Definition is_busy_write (e : Event) : bool :=
  match e with
  | Did (SetIsScraping _) => true
  | _ => false
  end.

Definition is_fetch (e : Event) : bool :=
  match e with
  | Called (Fetch _) => true
  | _ => false
  end.

(** What reaches the user or the parent component: toasts and calls of
    [importFromCode]. *)
Definition is_notification (e : Event) : bool :=
  match e with
  | Did (ToastError _) => true
  | Did (ToastSuccess _) => true
  | Did (ImportFromCode _ _) => true
  | _ => false
  end.

Definition error_toasts (tr : list Event) : list Json :=
  flat_map (fun e => match e with Did (ToastError m) => [m] | _ => [] end) tr.

(** What is left of the [try] and [catch] blocks of [doScrape] once its
    [fetch] has settled as [x]. *)
Definition on_settled (x : Settled Response) : Prog unit :=
  try_catch
    (response <- match x with
                 | Fulfilled v => Ret v
                 | Rejected e => Throw e
                 end ;;
     handle_response response)
    scrape_catch.

(** Events other than a write of [isScraping]. *)
Definition quiet (e : Event) : bool := negb (is_busy_write e).

(** The events the [try] block of [doScrape] can emit once its request
    has been answered. *)
Definition after_fetch (e : Event) : bool :=
  match e with
  | Called (ResponseJson _) => true
  | Did (ToastError _) => true
  | Did (ToastSuccess _) => true
  | Did (SetCode _) => true
  | _ => false
  end.

(** A run of whitespace: the buffer a trimming check would call empty. *)
Fixpoint all_space (v : string) : bool :=
  match v with
  | EmptyString => true
  | String c rest => is_space c && all_space rest
  end.

(** A scrape is in flight: [doScrape] awaits its response or the body. *)
Definition scraping (a : Session) : Prop :=
  Exists (fun t => is_scrape (origin t) = true) (inflight a).

(** What is kept of every handler in flight: one started by [doScrape]
    ends with the flag down, any other never writes the flag. *)
Definition task_ok (t : Task) : Prop :=
  if is_scrape (origin t)
  then forall x s, ends_idle (resume t x) s
  else forall x, only quiet (resume t x).

Definition sound (a : Session) : Prop :=
  Forall task_ok (inflight a) /\
  (isScraping (state a) = true -> scraping a).

(** ** The Scrape HTML button and the panel as the user drives it *)

(** The [disabled] prop of the Scrape HTML button. *)
Definition scrape_disabled (s : State) : bool :=
  (trim (url s) =? "") || isScraping s.

(** An event the rendered panel lets through: a disabled button takes no
    click. *)
Definition can_fire (ev : UserEvent) (s : State) : bool :=
  match ev with
  | ClickScrape => negb (scrape_disabled s)
  | _ => true
  end.

Inductive ui_step : Session -> Session -> Prop :=
| ui_event (ev : UserEvent) (s : State) (tasks : list Task) :
    can_fire ev s = true ->
    ui_step (mkSession s tasks)
            (park ev (advance (handler ev s) s) tasks)
| ui_settle (net : Request -> Settled Response) (s : State)
    (before : list Task) (t : Task) (after : list Task) :
    ui_step (mkSession s (before ++ t :: after))
            (park (origin t)
               (advance (resume t (settle net (waiting t))) s)
               (before ++ after)).

Inductive ui_reachable : Session -> Prop :=
| ui_mount : ui_reachable (mkSession initial [])
| ui_next (a b : Session) : ui_reachable a -> ui_step a b -> ui_reachable b.

Definition scrapes (tasks : list Task) : nat :=
  length (filter (fun t => is_scrape (origin t)) tasks).

(** The program writes [isScraping] once, to [false], as its last action,
    and returns. *)
Fixpoint lowers_flag_last (p : Prog unit) : Prop :=
  match p with
  | Ret _ => False
  | Throw _ => False
  | Do a k =>
      match a with
      | SetIsScraping b => b = false /\ k = Ret tt
      | _ => lowers_flag_last k
      end
  | Await _ k => forall x, lowers_flag_last (k x)
  end.

Definition ui_task_ok (t : Task) : Prop :=
  if is_scrape (origin t)
  then forall x, lowers_flag_last (resume t x)
  else forall x, only quiet (resume t x).

Definition single_flight (a : Session) : Prop :=
  Forall ui_task_ok (inflight a) /\
  scrapes (inflight a) = if isScraping (state a) then 1 else 0.

(** To completion as [run], but with the state changed by [meanwhile c]
    while the promise [c] is pending: whatever other handlers did in the
    meantime. *)
Fixpoint run_amid {A : Type} (net : Request -> Settled Response)
  (meanwhile : Call -> State -> State) (p : Prog A) (s : State) : Run A :=
  match p with
  | Ret a => mkRun s [] (inr a)
  | Throw e => mkRun s [] (inl e)
  | Do a k =>
      let r := run_amid net meanwhile k (apply a s) in
      mkRun (final r) (Did a :: trace r) (result r)
  | Await c k =>
      let r := run_amid net meanwhile (k (settle net c)) (meanwhile c s) in
      mkRun (final r) (Called c :: trace r) (result r)
  end.

Definition is_toast (e : Event) : bool :=
  match e with
  | Did (ToastError _) => true
  | Did (ToastSuccess _) => true
  | _ => false
  end.

Definition is_code_write (e : Event) : bool :=
  match e with
  | Did (SetCode _) => true
  | _ => false
  end.

Definition is_import (e : Event) : bool :=
  match e with
  | Did (ImportFromCode _ _) => true
  | _ => false
  end.

(** The last character of a string, if any. *)
Fixpoint last_char (v : string) : option ascii :=
  match v with
  | EmptyString => None
  | String c EmptyString => Some c
  | String _ rest => last_char rest
  end.

Definition first_char (v : string) : option ascii :=
  match v with
  | EmptyString => None
  | String c _ => Some c
  end.

(** ** How the combinators run *)

Lemma run_eta {A : Type} (r : Run A) :
  mkRun (final r) (trace r) (result r) = r.
Proof. destruct r; reflexivity. Qed.

Lemma run_bind {A B : Type} (net : Request -> Settled Response)
  (p : Prog A) (f : A -> Prog B) (s : State) :
  run net (bind p f) s =
  match result (run net p s) with
  | inr a =>
      let r := run net (f a) (final (run net p s)) in
      mkRun (final r) (trace (run net p s) ++ trace r) (result r)
  | inl e => mkRun (final (run net p s)) (trace (run net p s)) (inl e)
  end.
Proof.
  revert s; induction p as [a | e | a k IH | c k IH]; intros s; simpl.
  - now rewrite run_eta.
  - reflexivity.
  - rewrite IH. now destruct (result (run net k (apply a s))).
  - rewrite IH. now destruct (result (run net (k (settle net c)) s)).
Qed.

Lemma run_try_catch {A : Type} (net : Request -> Settled Response)
  (p : Prog A) (h : Thrown -> Prog A) (s : State) :
  run net (try_catch p h) s =
  match result (run net p s) with
  | inr a => run net p s
  | inl e =>
      let r := run net (h e) (final (run net p s)) in
      mkRun (final r) (trace (run net p s) ++ trace r) (result r)
  end.
Proof.
  revert s; induction p as [a | e | a k IH | c k IH]; intros s; simpl.
  - reflexivity.
  - now rewrite run_eta.
  - rewrite IH. destruct (result (run net k (apply a s))) eqn:E; simpl.
    + reflexivity.
    + now rewrite <- E.
  - rewrite IH. destruct (result (run net (k (settle net c)) s)) eqn:E; simpl.
    + reflexivity.
    + now rewrite <- E.
Qed.

Lemma run_finally {A : Type} (net : Request -> Settled Response)
  (p : Prog A) (f : Prog unit) (s : State) :
  run net (finally p f) s =
  let r := run net p s in
  let r' := run net f (final r) in
  mkRun (final r') (trace r ++ trace r')
    match result r' with
    | inl e => inl e
    | inr _ => result r
    end.
Proof.
  revert s; induction p as [a | e | a k IH | c k IH]; intros s; simpl.
  - rewrite run_bind. destruct (result (run net f s)); simpl.
    + reflexivity.
    + now rewrite app_nil_r.
  - rewrite run_bind. destruct (result (run net f s)); simpl.
    + reflexivity.
    + now rewrite app_nil_r.
  - now rewrite IH.
  - now rewrite IH.
Qed.

(** ** What a program can emit *)

Lemma only_bind (allowed : Event -> bool) {A B : Type}
  (p : Prog A) (f : A -> Prog B) :
  only allowed p -> (forall a, only allowed (f a)) -> only allowed (bind p f).
Proof.
  intros Hp Hf; induction p as [a | e | a k IH | c k IH]; simpl in *.
  - apply Hf.
  - exact I.
  - split; [apply Hp | apply IH, Hp].
  - split; [apply Hp | intros x; apply IH, Hp].
Qed.

Lemma only_try_catch (allowed : Event -> bool) {A : Type}
  (p : Prog A) (h : Thrown -> Prog A) :
  only allowed p -> (forall e, only allowed (h e)) ->
  only allowed (try_catch p h).
Proof.
  intros Hp Hh; induction p as [a | e | a k IH | c k IH]; simpl in *.
  - exact I.
  - apply Hh.
  - split; [apply Hp | apply IH, Hp].
  - split; [apply Hp | intros x; apply IH, Hp].
Qed.

Lemma only_run (allowed : Event -> bool) {A : Type}
  (net : Request -> Settled Response) (p : Prog A) (s : State) :
  only allowed p -> forallb allowed (trace (run net p s)) = true.
Proof.
  revert s; induction p as [a | e | a k IH | c k IH]; intros s Hp; simpl in *.
  - reflexivity.
  - reflexivity.
  - destruct Hp as [Ha Hk]. now rewrite Ha, IH.
  - destruct Hp as [Hc Hk]. rewrite Hc, IH; [reflexivity | apply Hk].
Qed.

Lemma filter_none {X : Type} (bad : X -> bool) (l : list X) :
  forallb (fun x => negb (bad x)) l = true -> filter bad l = [].
Proof.
  induction l as [| x l IH]; simpl; [reflexivity |].
  destruct (bad x); simpl; [discriminate | exact IH].
Qed.

(** A program that never writes [isScraping] leaves it as it was, and so
    does what is left of it at its next [await]. *)
Lemma quiet_advance (p : Prog unit) (s : State) :
  only (fun e => negb (is_busy_write e)) p ->
  isScraping (fst (advance p s)) = isScraping s /\
  match snd (advance p s) with
  | Finished _ => True
  | Suspended c k => forall x, only (fun e => negb (is_busy_write e)) (k x)
  end.
Proof.
  revert s; induction p as [a | e | a k IH | c k IH]; intros s Hp; simpl in *.
  - now split.
  - now split.
  - destruct Hp as [Ha Hk]. destruct (IH (apply a s) Hk) as [E R].
    split; [| exact R]. rewrite E. now destruct a.
  - split; [reflexivity | apply Hp].
Qed.

(** ** Exceptions and the busy flag *)

Lemma never_throws_try_catch {A : Type} (p : Prog A) (h : Thrown -> Prog A) :
  (forall e, never_throws (h e)) -> never_throws (try_catch p h).
Proof.
  intros Hh; induction p as [a | e | a k IH | c k IH]; simpl; auto.
Qed.

Lemma ends_idle_finally (p : Prog unit) :
  never_throws p ->
  forall s, ends_idle (finally p (act (SetIsScraping false))) s.
Proof.
  induction p as [a | e | a k IH | c k IH]; simpl; intros Hp s.
  - reflexivity.
  - contradiction.
  - now apply IH.
  - intros x s'. now apply IH.
Qed.

Lemma ends_idle_run (net : Request -> Settled Response)
  (p : Prog unit) (s : State) :
  ends_idle p s ->
  isScraping (final (run net p s)) = false /\
  result (run net p s) = inr tt.
Proof.
  revert s; induction p as [a | e | a k IH | c k IH]; intros s Hp; simpl in *.
  - destruct a. now split.
  - contradiction.
  - now apply IH.
  - apply IH, Hp.
Qed.

Lemma ends_idle_advance (p : Prog unit) (s : State) :
  ends_idle p s ->
  match snd (advance p s) with
  | Finished r => isScraping (fst (advance p s)) = false /\ r = inr tt
  | Suspended c k => forall x s', ends_idle (k x) s'
  end.
Proof.
  revert s; induction p as [a | e | a k IH | c k IH]; intros s Hp; simpl in *.
  - destruct a. now split.
  - contradiction.
  - now apply IH.
  - exact Hp.
Qed.

(** ** The handlers, one by one *)

Lemma scrape_catch_never_throws (e : Thrown) : never_throws (scrape_catch e).
Proof. exact I. Qed.

Lemma doImport_quiet (s : State) : only quiet (doImport s).
Proof.
  unfold doImport. destruct (code s =? ""); [simpl; auto |].
  destruct (stack s); simpl; auto.
Qed.

Lemma onDrop_quiet (acceptedFiles : list File) : only quiet (onDrop acceptedFiles).
Proof.
  destruct acceptedFiles as [| file rest]; simpl; [auto |].
  repeat split. intros [contents | e]; simpl; auto.
Qed.

Lemma handler_quiet (ev : UserEvent) (s : State) :
  is_scrape ev = false -> only quiet (handler ev s).
Proof.
  destruct ev; simpl; intros H; auto; try discriminate.
  - apply onDrop_quiet.
  - apply doImport_quiet.
  - unfold handleKeyDown.
    destruct ((key_name e =? "Enter") && (metaKey e || ctrlKey e)); simpl; auto.
    split; [reflexivity | apply doImport_quiet].
Qed.

(** Past the URL check [doScrape] sets the flag, sends its request and
    gives control back; whatever is left of it ends with the flag down. *)
Lemma doScrape_dispatch (s : State) :
  trim (url s) <> "" ->
  exists k,
    advance (doScrape s) s =
      (apply (SetIsScraping true) s,
       Suspended (Fetch (scrape_request (trim (url s)))) k) /\
    forall x s', ends_idle (k x) s'.
Proof.
  intros H. unfold doScrape.
  destruct (trim (url s) =? "") eqn:E; [now apply String.eqb_eq in E |].
  simpl. eexists; split; [reflexivity |].
  intros x s'. apply ends_idle_finally, never_throws_try_catch.
  exact scrape_catch_never_throws.
Qed.

Lemma doScrape_rejected_url (s : State) :
  trim (url s) = "" ->
  doScrape s = toast_error "Please enter a URL to scrape".
Proof. intros H. unfold doScrape. now rewrite H. Qed.

(** ** An invariant of the panel *)

Lemma sound_park_scrape (ev : UserEvent) (now : State * Stop unit)
  (others : list Task) :
  is_scrape ev = true ->
  Forall task_ok others ->
  match snd now with
  | Finished r => isScraping (fst now) = false
  | Suspended c k => forall x s', ends_idle (k x) s'
  end ->
  sound (park ev now others).
Proof.
  intros Hev Hothers Hnow. unfold park, sound.
  destruct now as [s' [r | c k]]; simpl in *.
  - split; [exact Hothers | congruence].
  - split.
    + apply Forall_app; split; [exact Hothers |].
      constructor; [| constructor]. unfold task_ok; simpl. now rewrite Hev.
    + intros _. apply Exists_app; right. now constructor.
Qed.

Lemma sound_park_quiet (ev : UserEvent) (now : State * Stop unit)
  (others : list Task) :
  is_scrape ev = false ->
  Forall task_ok others ->
  (isScraping (fst now) = true ->
   Exists (fun t => is_scrape (origin t) = true) others) ->
  match snd now with
  | Finished r => True
  | Suspended c k => forall x, only quiet (k x)
  end ->
  sound (park ev now others).
Proof.
  intros Hev Hothers Hbusy Hnow. unfold park, sound.
  destruct now as [s' [r | c k]]; simpl in *.
  - now split.
  - split.
    + apply Forall_app; split; [exact Hothers |].
      constructor; [| constructor]. unfold task_ok; simpl. now rewrite Hev.
    + intros Hb. apply Exists_app; left. now apply Hbusy.
Qed.

Lemma sound_step (a b : Session) : sound a -> step a b -> sound b.
Proof.
  intros [Htasks Hbusy] Hstep.
  destruct Hstep as [ev s tasks | net s before t after]; simpl in *.
  - destruct (is_scrape ev) eqn:Hev.
    + destruct ev; try discriminate. simpl handler.
      destruct (string_dec (trim (url s)) "") as [E | E].
      * rewrite (doScrape_rejected_url s E). simpl. now split.
      * destruct (doScrape_dispatch s E) as [k [-> Hk]].
        now apply sound_park_scrape.
    + destruct (quiet_advance (handler ev s) s (handler_quiet ev s Hev))
        as [Esame Hrest].
      apply sound_park_quiet; auto.
      rewrite Esame. exact Hbusy.
  - apply Forall_app in Htasks. destruct Htasks as [Hbefore Hrest].
    inversion Hrest as [| t' after' Ht Hafter]; subst.
    assert (Hothers : Forall task_ok (before ++ after))
      by (apply Forall_app; now split).
    unfold task_ok in Ht. destruct (is_scrape (origin t)) eqn:Hev.
    + apply sound_park_scrape; auto.
      pose proof (ends_idle_advance _ s (Ht (settle net (waiting t)) s)) as H.
      destruct (snd (advance (resume t (settle net (waiting t))) s));
        [apply H | exact H].
    + destruct (quiet_advance _ s (Ht (settle net (waiting t)))) as [Esame Hk].
      apply sound_park_quiet; auto.
      rewrite Esame. intros Hb. specialize (Hbusy Hb).
      apply Exists_app in Hbusy. apply Exists_app.
      destruct Hbusy as [H | H]; [now left | right].
      inversion H as [t' l' Hhead | t' l' Htail]; subst; [congruence | exact Htail].
Qed.

Lemma sound_reachable (a : Session) : reachable a -> sound a.
Proof.
  induction 1 as [| a b _ IH Hstep].
  - split; [constructor | discriminate].
  - exact (sound_step IH Hstep).
Qed.

(** ** What [doScrape] emits *)

Lemma only_weaken (allowed allowed' : Event -> bool) {A : Type} (p : Prog A) :
  (forall e, allowed e = true -> allowed' e = true) ->
  only allowed p -> only allowed' p.
Proof.
  intros Hw; induction p as [a | e | a k IH | c k IH]; simpl; auto.
  - intros [Ha Hk]; auto.
  - intros [Hc Hk]; auto.
Qed.

Lemma get_only (allowed : Event -> bool) (a : Access) (base : Json) :
  only allowed (get a base).
Proof. unfold get. now destruct (read a base). Qed.

Lemma await_only (allowed : Event -> bool) (c : Call) :
  allowed (Called c) = true -> only allowed (await c).
Proof. intros H; split; [exact H | now intros [v | e]]. Qed.

Lemma handle_response_only (response : Response) :
  only after_fetch (handle_response response).
Proof.
  unfold handle_response. destruct (negb (ok response)).
  - apply only_bind.
    + apply only_try_catch; [now apply await_only | now intros e].
    + intros err. apply only_bind; [apply get_only | now intros detail].
  - apply only_bind; [now apply await_only |].
    intros parsed. apply only_bind; [apply get_only |].
    intros content.
    now destruct (negb (truthy content) || negb (typeof_is_string content)).
Qed.

(** The run of [doScrape] past the URL check: the flag goes up, the
    request goes out, the response is handled, the flag goes down. *)
Lemma doScrape_run (net : Request -> Settled Response) (s : State) :
  trim (url s) <> "" ->
  fire net ClickScrape s =
  let req := scrape_request (trim (url s)) in
  let inner := run net (on_settled (net req)) (apply (SetIsScraping true) s) in
  mkRun (apply (SetIsScraping false) (final inner))
    (Did (SetIsScraping true) :: Called (Fetch req) ::
       trace inner ++ [Did (SetIsScraping false)])
    (result inner).
Proof.
  intros H. unfold fire; simpl handler; unfold doScrape.
  destruct (trim (url s) =? "") eqn:E; [now apply String.eqb_eq in E |].
  simpl. now rewrite run_finally.
Qed.

Lemma on_settled_only (x : Settled Response) : only after_fetch (on_settled x).
Proof.
  apply only_try_catch; [| now intros e].
  destruct x as [response | e]; simpl; [apply handle_response_only | exact I].
Qed.

Lemma doScrape_ends_idle (s : State) :
  trim (url s) <> "" -> ends_idle (doScrape s) s.
Proof.
  intros H. unfold doScrape.
  destruct (trim (url s) =? "") eqn:E; [now apply String.eqb_eq in E |].
  simpl. intros x s'. apply ends_idle_finally, never_throws_try_catch.
  exact scrape_catch_never_throws.
Qed.

Lemma doImport_ready (s : State) (st : Stack) :
  code s <> "" -> stack s = Some st ->
  doImport s = act (ImportFromCode (code s) st).
Proof.
  intros Hcode Hstack. unfold doImport.
  destruct (code s =? "") eqn:E; [now apply String.eqb_eq in E |].
  now rewrite Hstack.
Qed.

Lemma all_space_trim (v : string) : all_space v = true -> trim v = "".
Proof.
  unfold trim. induction v as [| c rest IH]; simpl; [reflexivity |].
  intros H. apply andb_prop in H. destruct H as [Hc Hrest].
  rewrite Hc. now apply IH.
Qed.

(** ** The submission gate *)

(** C1. With a non-empty [code] and a selected [stack], [doImport] calls
    [importFromCode] once, with that very [code] and [stack]: the call is
    the whole trace, the state is left as it was (the buffer is not
    cleared), and the handler finishes without awaiting anything. *)
Theorem doImport_calls_importFromCode
  (net : Request -> Settled Response) (s : State) (st : Stack) :
  code s <> "" ->
  stack s = Some st ->
  fire net ClickImport s =
    mkRun s [Did (ImportFromCode (code s) st)] (inr tt) /\
  advance (doImport s) s = (s, Finished (inr tt)).
Proof.
  intros Hcode Hstack. unfold fire; simpl handler.
  rewrite (doImport_ready s Hcode Hstack). now split.
Qed.

(** C3. With an empty [code], whatever [stack] is, [doImport] only shows
    the error toast "Please paste in some code": no call of
    [importFromCode], no state change.  With a non-empty [code] and no
    [stack] it only shows "Please select your stack".  The [code] check
    comes first, so it is its toast that shows when both fail. *)
Theorem doImport_validation
  (net : Request -> Settled Response) (s : State) :
  (code s = "" ->
   fire net ClickImport s =
     mkRun s [Did (ToastError (JString "Please paste in some code"))]
       (inr tt)) /\
  (code s <> "" -> stack s = None ->
   fire net ClickImport s =
     mkRun s [Did (ToastError (JString "Please select your stack"))]
       (inr tt)).
Proof.
  unfold fire; simpl handler; unfold doImport. split.
  - intros Hcode. now rewrite Hcode.
  - intros Hcode Hstack.
    destruct (code s =? "") eqn:E; [now apply String.eqb_eq in E |].
    now rewrite Hstack.
Qed.

(** C10. A [code] that is a non-empty run of whitespace passes the
    emptiness check of [doImport], which compares with the empty string
    and does not trim: although [code.trim()] is empty, [importFromCode]
    is called with the whitespace itself when a [stack] is selected. *)
Theorem doImport_does_not_trim
  (net : Request -> Settled Response) (s : State) (st : Stack) :
  code s <> "" ->
  all_space (code s) = true ->
  stack s = Some st ->
  trim (code s) = "" /\
  fire net ClickImport s =
    mkRun s [Did (ImportFromCode (code s) st)] (inr tt).
Proof.
  intros Hcode Hspace Hstack. split; [now apply all_space_trim |].
  unfold fire; simpl handler. now rewrite (doImport_ready s Hcode Hstack).
Qed.

(** C9. A key press that is Enter with Cmd or Ctrl held runs [doImport]
    itself: apart from the [preventDefault] on the key event, the trace,
    the final state and the outcome are those of the Import Code button,
    so the same check fails first, the same toast shows and the same call
    of [importFromCode] is made. *)
Theorem handleKeyDown_shortcut_is_doImport
  (net : Request -> Settled Response) (s : State) (e : KeyboardEvent) :
  key_name e = "Enter" ->
  metaKey e || ctrlKey e = true ->
  let pressed := fire net (KeyDown e) s in
  let clicked := fire net ClickImport s in
  trace pressed = Did PreventDefault :: trace clicked /\
  final pressed = final clicked /\
  result pressed = result clicked /\
  filter is_notification (trace pressed) =
    filter is_notification (trace clicked).
Proof.
  intros Hkey Hmod. unfold fire; simpl handler; unfold handleKeyDown.
  rewrite Hkey, Hmod. simpl. repeat split.
Qed.

(** ** Scraping *)

(** C7. When the trimmed [url] is empty, [doScrape] only shows the error
    toast "Please enter a URL to scrape": [isScraping] is not touched and
    nothing is fetched.  Otherwise it fetches once, a POST to
    [/api/scrape-url] of the backend whose JSON body is the object with
    the trimmed [url] under [url]. *)
Theorem doScrape_url_check
  (net : Request -> Settled Response) (s : State) :
  (trim (url s) = "" ->
   fire net ClickScrape s =
     mkRun s [Did (ToastError (JString "Please enter a URL to scrape"))]
       (inr tt)) /\
  (trim (url s) <> "" ->
   filter is_fetch (trace (fire net ClickScrape s)) =
     [Called (Fetch
        (mkRequest (HTTP_BACKEND_URL ++ "/api/scrape-url") "POST"
           [("Content-Type", "application/json")]
           (JObject [("url", JString (trim (url s)))])))]).
Proof.
  split; intros H.
  - unfold fire; simpl handler. now rewrite (doScrape_rejected_url s H).
  - rewrite (doScrape_run net s H). simpl. rewrite filter_app. simpl.
    rewrite filter_none; [reflexivity |].
    apply only_run, only_weaken with (allowed := after_fetch).
    + now intros [[] | []].
    + apply on_settled_only.
Qed.

(** C4. When the response is [ok] and its body is an object whose
    [content] is a non-empty string, [doScrape] sets [code] to exactly
    that string and shows the success toast; the run is: flag up, fetch,
    read the body, set [code], toast, flag down. *)
Theorem doScrape_success
  (net : Request -> Settled Response) (s : State) (response : Response)
  (props : list (string * Json)) (content : string) :
  trim (url s) <> "" ->
  net (scrape_request (trim (url s))) = Fulfilled response ->
  ok response = true ->
  json response = Fulfilled (JObject props) ->
  lookup "content" props = Some (JString content) ->
  content <> "" ->
  fire net ClickScrape s =
    mkRun (mkState content (url s) (stack s) (isDraggingFile s) false)
      [Did (SetIsScraping true);
       Called (Fetch (scrape_request (trim (url s))));
       Called (ResponseJson response);
       Did (SetCode content);
       Did (ToastSuccess
         "Full HTML scraped. Review below and click Import Code when ready.");
       Did (SetIsScraping false)]
      (inr tt).
Proof.
  intros Hurl Hnet Hok Hjson Hcontent Hnonempty.
  rewrite (doScrape_run net s Hurl); cbv zeta; rewrite Hnet.
  unfold on_settled, handle_response; cbn [bind]. rewrite Hok. simpl.
  rewrite Hjson. simpl. rewrite Hcontent. simpl.
  destruct (content =? "") eqn:E; [now apply String.eqb_eq in E |].
  reflexivity.
Qed.

(** X12. When the response is [ok] and reading [content] off the parsed
    body gives [undefined], something that is not a string, or the empty
    string, the guard after the destructuring rejects it: [doScrape]
    leaves [code] as it was and shows the error toast "Invalid response
    from server".  Bodies such as a number, an array, a string, [false]
    or an object without a usable [content] all end here. *)
Theorem doScrape_invalid_body
  (net : Request -> Settled Response) (s : State) (response : Response)
  (parsed : Json) (content : Value) :
  trim (url s) <> "" ->
  net (scrape_request (trim (url s))) = Fulfilled response ->
  ok response = true ->
  json response = Fulfilled parsed ->
  read (Destructure "content") parsed = inr content ->
  content = None \/ typeof_is_string content = false \/
    content = Some (JString "") ->
  fire net ClickScrape s =
    mkRun (mkState (code s) (url s) (stack s) (isDraggingFile s) false)
      [Did (SetIsScraping true);
       Called (Fetch (scrape_request (trim (url s))));
       Called (ResponseJson response);
       Did (ToastError (JString "Invalid response from server"));
       Did (SetIsScraping false)]
      (inr tt).
Proof.
  intros Hurl Hnet Hok Hjson Hread Hbad.
  rewrite (doScrape_run net s Hurl); cbv zeta; rewrite Hnet.
  unfold on_settled, handle_response; cbn [bind]. rewrite Hok. simpl.
  rewrite Hjson. simpl. unfold get. rewrite Hread. simpl.
  assert (E : negb (truthy content) || negb (typeof_is_string content) = true).
  { destruct Hbad as [-> | [H | ->]]; [reflexivity | | reflexivity].
    rewrite H. apply orb_true_r. }
  now rewrite E.
Qed.

(** C5. The claim does not hold of the code where the body of an [ok]
    response is [null].  Such a body has no [content], yet the
    destructuring throws before the guard that would answer "Invalid
    response from server" is reached: the [catch] block shows the text
    of the engine's [TypeError] instead.  [code] is left as it was and
    [isScraping] ends false. *)
Theorem doScrape_null_body
  (net : Request -> Settled Response) (s : State) (response : Response) :
  trim (url s) <> "" ->
  net (scrape_request (trim (url s))) = Fulfilled response ->
  ok response = true ->
  json response = Fulfilled JNull ->
  fire net ClickScrape s =
    mkRun (mkState (code s) (url s) (stack s) (isDraggingFile s) false)
      [Did (SetIsScraping true);
       Called (Fetch (scrape_request (trim (url s))));
       Called (ResponseJson response);
       Did (ToastError (JString (type_error_message (Destructure "content"))));
       Did (SetIsScraping false)]
      (inr tt).
Proof.
  intros Hurl Hnet Hok Hjson.
  rewrite (doScrape_run net s Hurl); cbv zeta; rewrite Hnet.
  unfold on_settled, handle_response; cbn [bind]. rewrite Hok. simpl.
  rewrite Hjson. reflexivity.
Qed.

(** Reading [detail] off a failed response whose body is [null] throws as
    well, and the toast is again the text of the [TypeError]. *)
Lemma doScrape_http_error_null_body
  (net : Request -> Settled Response) (s : State) (response : Response) :
  trim (url s) <> "" ->
  net (scrape_request (trim (url s))) = Fulfilled response ->
  ok response = false ->
  json response = Fulfilled JNull ->
  error_toasts (trace (fire net ClickScrape s)) =
    [JString (type_error_message (Member "detail"))].
Proof.
  intros Hurl Hnet Hok Hjson.
  rewrite (doScrape_run net s Hurl); cbv zeta; rewrite Hnet.
  unfold on_settled, handle_response; cbn [bind]. rewrite Hok. simpl.
  rewrite Hjson. reflexivity.
Qed.

(** C6, as amended.  When the response is not [ok], [code] is left as it
    was.  When its body parses to a value other than [null], reading
    [detail] off it succeeds and one error toast shows, whose message is
    that [detail] when it is truthy and "Failed to scrape URL" when it
    is missing or falsy.  When the body does not parse, the message is
    [statusText] if that is not empty and "Failed to scrape URL" if it
    is. *)
Theorem doScrape_http_error
  (net : Request -> Settled Response) (s : State) (response : Response) :
  trim (url s) <> "" ->
  net (scrape_request (trim (url s))) = Fulfilled response ->
  ok response = false ->
  let r := fire net ClickScrape s in
  code (final r) = code s /\
  (forall parsed,
     json response = Fulfilled parsed ->
     parsed <> JNull ->
     exists detail,
       read (Member "detail") parsed = inr detail /\
       (forall j, detail = Some j -> truthy_json j = true ->
          error_toasts (trace r) = [j]) /\
       (truthy detail = false ->
          error_toasts (trace r) = [JString "Failed to scrape URL"])) /\
  (forall e,
     json response = Rejected e ->
     error_toasts (trace r) =
       [JString (if statusText response =? ""
                 then "Failed to scrape URL"
                 else statusText response)]).
Proof.
  intros Hurl Hnet Hok.
  rewrite (doScrape_run net s Hurl); cbv zeta; rewrite Hnet.
  unfold on_settled, handle_response; cbn [bind]. rewrite Hok. simpl.
  destruct (json response) as [parsed | e]; simpl.
  - split; [| split; [| congruence]].
    + unfold get. now destruct (read (Member "detail") parsed).
    + intros parsed' [= <-] Hnull.
      assert (Hread : exists detail, read (Member "detail") parsed = inr detail).
      { destruct parsed; simpl; try (eexists; reflexivity). now elim Hnull. }
      destruct Hread as [detail Hread]. exists detail.
      unfold get. rewrite Hread. simpl. repeat split.
      * intros j -> Ht. simpl. now rewrite Ht.
      * intros Ht. destruct detail as [j |]; simpl in *;
          [now rewrite Ht | reflexivity].
  - split; [reflexivity | split; [congruence |]].
    intros _ _. now destruct (statusText response =? "").
Qed.

(** C2. Past the URL check, however the request ends (an [ok] response,
    a failed one, a body that is not what is expected, a rejected
    promise), [doScrape] returns normally with [isScraping] false: it
    writes the flag twice, [true] right before the request goes out and
    [false] as its last action.  Over the life of the panel, with other
    events handled while promises are pending, [isScraping] is true only
    while a scrape is in flight, and a scrape that completes leaves it
    false.  Editing or pasting into the textarea and dropping files never
    write the flag. *)
Theorem doScrape_resets_isScraping :
  (forall (net : Request -> Settled Response) (s : State),
     trim (url s) <> "" ->
     let r := fire net ClickScrape s in
     isScraping (final r) = false /\
     result r = inr tt /\
     exists mid,
       trace r =
         Did (SetIsScraping true) ::
         Called (Fetch (scrape_request (trim (url s)))) ::
         mid ++ [Did (SetIsScraping false)] /\
       filter is_busy_write mid = []) /\
  (forall a : Session,
     reachable a -> isScraping (state a) = true -> scraping a) /\
  (forall (net : Request -> Settled Response) (s : State)
          (before : list Task) (t : Task) (after : list Task),
     reachable (mkSession s (before ++ t :: after)) ->
     is_scrape (origin t) = true ->
     let now := advance (resume t (settle net (waiting t))) s in
     match snd now with
     | Finished r => isScraping (fst now) = false /\ r = inr tt
     | Suspended _ _ => True
     end) /\
  (forall (s : State) (v : string), only quiet (handler (ChangeCode v) s)) /\
  (forall (s : State) (acceptedFiles : list File),
     only quiet (handler (Drop acceptedFiles) s)).
Proof.
  split; [| split; [| split; [| split]]].
  - intros net s H; cbv zeta.
    assert (Hidle : ends_idle (handler ClickScrape s) s)
      by now apply doScrape_ends_idle.
    destruct (ends_idle_run net _ s Hidle) as [Hflag Hres].
    split; [exact Hflag | split; [exact Hres |]].
    rewrite (doScrape_run net s H); cbv zeta.
    eexists; split; [reflexivity |].
    apply filter_none, only_run, only_weaken with (allowed := after_fetch).
    + now intros [[] | []].
    + apply on_settled_only.
  - intros a Ha. exact (proj2 (sound_reachable Ha)).
  - intros net s before t after Ha Ht.
    pose proof (proj1 (sound_reachable Ha)) as Htasks. simpl in Htasks.
    apply Forall_app in Htasks. destruct Htasks as [_ Htasks].
    inversion Htasks as [| t' after' Hok _]; subst.
    unfold task_ok in Hok. rewrite Ht in Hok.
    pose proof (ends_idle_advance _ s (Hok (settle net (waiting t)) s)) as H.
    cbv zeta.
    destruct (snd (advance (resume t (settle net (waiting t))) s));
      [exact H | exact I].
  - intros s v. now simpl.
  - intros s acceptedFiles. apply onDrop_quiet.
Qed.

(** ** Dropping files *)

(** X11. No [catch] surrounds [file.text()]: when the read fails the
    rejection leaves [onDrop] uncaught, no toast shows, the textarea is
    not refocused and [code] stays as it was; only [isDraggingFile] has
    been cleared. *)
Lemma onDrop_unreadable (net : Request -> Settled Response) (s : State)
  (file : File) (rest : list File) (e : Thrown) :
  text file = Rejected e ->
  fire net (Drop (file :: rest)) s =
    mkRun (mkState (code s) (url s) (stack s) false (isScraping s))
      [Did (SetIsDraggingFile false); Called (FileText file)]
      (inl e).
Proof. intros Htext. unfold fire; simpl. now rewrite Htext. Qed.

(** C8. [onDrop] reads only the first of the accepted files: once its
    text is read, [code] is exactly that text, whatever it was before,
    and no other file is read; with no accepted file, nothing is read
    and [code] is left as it was. *)
Theorem onDrop_reads_first_file
  (net : Request -> Settled Response) (s : State) :
  (forall (file : File) (rest : list File) (contents : string),
     text file = Fulfilled contents ->
     fire net (Drop (file :: rest)) s =
       mkRun (mkState contents (url s) (stack s) false (isScraping s))
         [Did (SetIsDraggingFile false);
          Called (FileText file);
          Did (SetCode contents);
          Did (SetTimeoutFocus 50)]
         (inr tt)) /\
  fire net (Drop []) s =
    mkRun (mkState (code s) (url s) (stack s) false (isScraping s))
      [Did (SetIsDraggingFile false)]
      (inr tt).
Proof.
  split; [| reflexivity].
  intros file rest contents Htext. unfold fire; simpl. now rewrite Htext.
Qed.

(** ** Further properties of the handlers *)

(** X1. A key press that is not Enter with Cmd or Ctrl held does nothing:
    no [preventDefault], no toast, no call of [importFromCode], and the
    state is left as it was.  In particular a plain Enter only breaks the
    line. *)
Theorem handleKeyDown_other_keys
  (net : Request -> Settled Response) (s : State) (e : KeyboardEvent) :
  key_name e <> "Enter" \/ (metaKey e = false /\ ctrlKey e = false) ->
  fire net (KeyDown e) s = mkRun s [] (inr tt).
Proof.
  intros H. unfold fire; simpl handler; unfold handleKeyDown.
  destruct H as [Hkey | [Hmeta Hctrl]].
  - destruct (key_name e =? "Enter") eqn:E; [now apply String.eqb_eq in E |].
    reflexivity.
  - rewrite Hmeta, Hctrl, andb_false_r. reflexivity.
Qed.

(** X2. When the [fetch] of [doScrape] rejects, the [catch] block shows
    one error toast, with the [message] of the exception if it is an
    [Error] and "Failed to scrape URL" otherwise; the body is never read,
    [code] is left as it was and [isScraping] is back to false. *)
Theorem doScrape_fetch_rejected
  (net : Request -> Settled Response) (s : State) (e : Thrown) :
  trim (url s) <> "" ->
  net (scrape_request (trim (url s))) = Rejected e ->
  fire net ClickScrape s =
    mkRun (mkState (code s) (url s) (stack s) (isDraggingFile s) false)
      [Did (SetIsScraping true);
       Called (Fetch (scrape_request (trim (url s))));
       Did (ToastError (JString
         match e with
         | ErrorObject message => message
         | NotAnError => "Failed to scrape URL"
         end));
       Did (SetIsScraping false)]
      (inr tt).
Proof.
  intros Hurl Hnet.
  rewrite (doScrape_run net s Hurl); cbv zeta; rewrite Hnet.
  reflexivity.
Qed.

(** X3. When the response is [ok] but [response.json()] rejects (the
    body is not JSON), the [catch] block shows one error toast with the
    [message] of that exception, or "Failed to scrape URL" if it is not an
    [Error]; [code] is left as it was and [isScraping] is back to
    false. *)
Theorem doScrape_unparseable_body
  (net : Request -> Settled Response) (s : State) (response : Response)
  (e : Thrown) :
  trim (url s) <> "" ->
  net (scrape_request (trim (url s))) = Fulfilled response ->
  ok response = true ->
  json response = Rejected e ->
  fire net ClickScrape s =
    mkRun (mkState (code s) (url s) (stack s) (isDraggingFile s) false)
      [Did (SetIsScraping true);
       Called (Fetch (scrape_request (trim (url s))));
       Called (ResponseJson response);
       Did (ToastError (JString
         match e with
         | ErrorObject message => message
         | NotAnError => "Failed to scrape URL"
         end));
       Did (SetIsScraping false)]
      (inr tt).
Proof.
  intros Hurl Hnet Hok Hjson.
  rewrite (doScrape_run net s Hurl); cbv zeta; rewrite Hnet.
  unfold on_settled, handle_response; cbn [bind]. rewrite Hok. simpl.
  rewrite Hjson. reflexivity.
Qed.

(** *** The URL that is sent *)

Lemma trimStart_first (v : string) (c : ascii) :
  first_char (trimStart v) = Some c -> is_space c = false.
Proof.
  induction v as [| a rest IH]; simpl; [discriminate |].
  destruct (is_space a) eqn:E; [exact IH |].
  simpl. now intros [= <-].
Qed.

Lemma trimEnd_first (v : string) (c : ascii) :
  first_char v = Some c -> is_space c = false ->
  first_char (trimEnd v) = Some c.
Proof.
  destruct v as [| a rest]; simpl; [discriminate |].
  intros [= ->] Hc. now rewrite Hc.
Qed.

Lemma trimEnd_last (v : string) (c : ascii) :
  last_char (trimEnd v) = Some c -> is_space c = false.
Proof.
  induction v as [| a rest IH]; simpl; [discriminate |].
  destruct (is_space a) eqn:Ea; simpl.
  - destruct (trimEnd rest) as [| b rest'] eqn:Er; simpl; [discriminate |].
    exact IH.
  - destruct (trimEnd rest) as [| b rest'] eqn:Er; simpl.
    + now intros [= <-].
    + exact IH.
Qed.

Lemma trim_clean (v : string) :
  trim v <> "" ->
  exists c d,
    first_char (trim v) = Some c /\ is_space c = false /\
    last_char (trim v) = Some d /\ is_space d = false.
Proof.
  unfold trim. intros H.
  destruct (trimStart v) as [| c rest] eqn:E; [now elim H |].
  assert (Hc : is_space c = false)
    by (apply (trimStart_first v); now rewrite E).
  assert (Hfirst : first_char (trimEnd (String c rest)) = Some c)
    by now apply trimEnd_first.
  destruct (last_char (trimEnd (String c rest))) as [d |] eqn:Hlast.
  - exists c, d. repeat split; auto. now apply (trimEnd_last (String c rest)).
  - exfalso. destruct (trimEnd (String c rest)) as [| a t]; [discriminate |].
    clear - Hlast. revert a Hlast.
    induction t as [| b t IH]; intros a; simpl; [discriminate |].
    apply IH.
Qed.

Lemma doScrape_fetches (net : Request -> Settled Response) (s : State) :
  trim (url s) <> "" ->
  filter is_fetch (trace (fire net ClickScrape s)) =
    [Called (Fetch (scrape_request (trim (url s))))].
Proof.
  intros H. rewrite (doScrape_run net s H). simpl. rewrite filter_app. simpl.
  rewrite filter_none; [reflexivity |].
  apply only_run, only_weaken with (allowed := after_fetch).
  - now intros [[] | []].
  - apply on_settled_only.
Qed.

(** X5. The URL that [doScrape] puts in the body of its request is never
    blank and carries no whitespace around it: it is not empty, and its
    first and last characters are not whitespace, whatever was typed in
    the URL field. *)
Theorem doScrape_sends_trimmed_url
  (net : Request -> Settled Response) (s : State) (req : Request) :
  In (Called (Fetch req)) (trace (fire net ClickScrape s)) ->
  exists sent c d,
    body req = JObject [("url", JString sent)] /\
    sent = trim (url s) /\ sent <> "" /\
    first_char sent = Some c /\ is_space c = false /\
    last_char sent = Some d /\ is_space d = false.
Proof.
  intros Hin.
  destruct (string_dec (trim (url s)) "") as [E | E].
  - unfold fire in Hin; simpl handler in Hin.
    rewrite (doScrape_rejected_url s E) in Hin.
    destruct Hin as [Hin | []]. discriminate.
  - assert (Hreq : req = scrape_request (trim (url s))).
    { pose proof (doScrape_fetches net s E) as Hone.
      assert (Hf : In (Called (Fetch req))
                     (filter is_fetch (trace (fire net ClickScrape s))))
        by (apply filter_In; now split).
      rewrite Hone in Hf. destruct Hf as [[= <-] | []]. reflexivity. }
    destruct (trim_clean (url s) E) as [c [d [Hc [Hcs [Hd Hds]]]]].
    exists (trim (url s)), c, d. subst req. repeat split; auto.
Qed.

(** X4. Every run of [doScrape] shows exactly one toast.  Either it is an
    error toast, and then [code] is not written at all; or it is the
    success toast, and then [code] was written once, with a non-empty
    string.  So a scrape never fails silently and never changes the
    buffer while reporting a failure. *)
Theorem doScrape_one_toast
  (net : Request -> Settled Response) (s : State) :
  let r := fire net ClickScrape s in
  (exists m,
     filter is_toast (trace r) = [Did (ToastError m)] /\
     filter is_code_write (trace r) = [] /\
     code (final r) = code s) \/
  (exists c,
     c <> "" /\
     filter is_toast (trace r) =
       [Did (ToastSuccess
          "Full HTML scraped. Review below and click Import Code when ready.")] /\
     filter is_code_write (trace r) = [Did (SetCode c)] /\
     code (final r) = c).
Proof.
  cbv zeta. destruct (string_dec (trim (url s)) "") as [E | E].
  - unfold fire; simpl handler. rewrite (doScrape_rejected_url s E).
    left. eexists. repeat split; reflexivity.
  - rewrite (doScrape_run net s E); cbv zeta.
    destruct (net (scrape_request (trim (url s)))) as [response | e].
    + unfold on_settled, handle_response; cbn [bind].
      destruct (ok response); simpl.
      * destruct (json response) as [parsed | e]; simpl;
          [| left; eexists; repeat split; reflexivity].
        unfold get, read.
        destruct parsed as [| b | q | v | items | props]; simpl;
          try (left; eexists; repeat split; reflexivity).
        destruct (lookup "content" props) as [[| b | q | c | items | props'] |];
          simpl; rewrite ?orb_true_r;
          try (left; eexists; repeat split; reflexivity).
        destruct (c =? "") eqn:Ec; simpl.
        -- left; eexists; repeat split; reflexivity.
        -- right. exists c. split; [now apply String.eqb_neq |].
           repeat split; reflexivity.
      * destruct (json response) as [parsed | e]; simpl.
        -- unfold get, read.
           destruct parsed; simpl; left; eexists; repeat split; reflexivity.
        -- left; eexists; repeat split; reflexivity.
    + left; eexists; repeat split; reflexivity.
Qed.

(** X6. A successful scrape has the last word on [code]: whatever other
    handlers did to the state while the request and then the body were
    pending (typing in the textarea, dropping a file, another scrape),
    the run ends with [code] being the scraped [content] and
    [isScraping] false. *)
Theorem doScrape_success_overwrites
  (net : Request -> Settled Response) (meanwhile : Call -> State -> State)
  (s : State) (response : Response) (props : list (string * Json))
  (content : string) :
  trim (url s) <> "" ->
  net (scrape_request (trim (url s))) = Fulfilled response ->
  ok response = true ->
  json response = Fulfilled (JObject props) ->
  lookup "content" props = Some (JString content) ->
  content <> "" ->
  let r := run_amid net meanwhile (doScrape s) s in
  code (final r) = content /\
  isScraping (final r) = false /\
  result r = inr tt.
Proof.
  intros Hurl Hnet Hok Hjson Hcontent Hnonempty. cbv zeta.
  unfold doScrape.
  destruct (trim (url s) =? "") eqn:E; [now apply String.eqb_eq in E |].
  simpl. rewrite Hnet. simpl.
  unfold handle_response. rewrite Hok. simpl. rewrite Hjson. simpl.
  rewrite Hcontent. simpl.
  destruct (content =? "") eqn:Ec; [now apply String.eqb_eq in Ec |].
  simpl. repeat split.
Qed.

(** X7. A dropped file has the last word on [code] too: whatever happened
    to the state while the file was being read, once the text is there
    [code] is exactly that text. *)
Theorem onDrop_overwrites
  (net : Request -> Settled Response) (meanwhile : Call -> State -> State)
  (s : State) (file : File) (rest : list File) (contents : string) :
  text file = Fulfilled contents ->
  code (final (run_amid net meanwhile (onDrop (file :: rest)) s)) = contents.
Proof. intros Htext. simpl. now rewrite Htext. Qed.

(** *** Who calls [importFromCode] *)

Lemma doImport_import (net : Request -> Settled Response) (s s' : State)
  (c : string) (st : Stack) :
  In (Did (ImportFromCode c st)) (trace (run net (doImport s) s')) ->
  c = code s /\ c <> "" /\ stack s = Some st.
Proof.
  unfold doImport. destruct (code s =? "") eqn:E; simpl.
  - intros [H | []]; discriminate.
  - apply String.eqb_neq in E. destruct (stack s) as [st' |]; simpl.
    + intros [[= <- <-] | []]. now repeat split.
    + intros [H | []]; discriminate.
Qed.

Lemma doScrape_no_import (net : Request -> Settled Response) (s : State) :
  forallb (fun e => negb (is_import e)) (trace (fire net ClickScrape s)) = true.
Proof.
  destruct (string_dec (trim (url s)) "") as [E | E].
  - unfold fire; simpl handler. now rewrite (doScrape_rejected_url s E).
  - rewrite (doScrape_run net s E). simpl. rewrite forallb_app. simpl.
    rewrite andb_true_r.
    apply only_run, only_weaken with (allowed := after_fetch).
    + now intros [[] | []].
    + apply on_settled_only.
Qed.

(** X8. Whatever the event and the state, [importFromCode] is only ever
    called by the Import Code button or a key press, and only with the
    current [code], which is then not empty, and the selected [stack].
    Typing, dropping a file and scraping never hand anything to the
    parent: scraped or dropped text waits in the textarea. *)
Theorem importFromCode_only_on_submit
  (net : Request -> Settled Response) (ev : UserEvent) (s : State)
  (c : string) (st : Stack) :
  In (Did (ImportFromCode c st)) (trace (fire net ev s)) ->
  (ev = ClickImport \/ exists e, ev = KeyDown e) /\
  c = code s /\ c <> "" /\ stack s = Some st.
Proof.
  destruct ev as [v | v | config | | | acceptedFiles | | | e]; intros Hin.
  - destruct Hin as [H | []]; discriminate.
  - destruct Hin as [H | []]; discriminate.
  - destruct Hin as [H | []]; discriminate.
  - destruct Hin as [H | []]; discriminate.
  - destruct Hin as [H | []]; discriminate.
  - exfalso. unfold fire in Hin; simpl in Hin.
    destruct Hin as [H | Hin]; [discriminate |].
    destruct acceptedFiles as [| file rest]; simpl in Hin; [contradiction |].
    destruct Hin as [H | Hin]; [discriminate |].
    destruct (text file); simpl in Hin; [| contradiction].
    destruct Hin as [H | [H | []]]; discriminate.
  - exfalso. pose proof (doScrape_no_import net s) as Hnone.
    rewrite forallb_forall in Hnone. specialize (Hnone _ Hin). discriminate.
  - split; [now left |]. now apply (doImport_import net s s).
  - split; [right; now exists e |].
    unfold fire in Hin; simpl handler in Hin; unfold handleKeyDown in Hin.
    destruct ((key_name e =? "Enter") && (metaKey e || ctrlKey e));
      simpl in Hin; [| contradiction].
    destruct Hin as [H | Hin]; [discriminate |].
    now apply (doImport_import net s s).
Qed.

(** *** The stack selector *)

Lemma advance_keeps (P : State -> Prop) :
  (forall a s, P s -> P (apply a s)) ->
  forall (p : Prog unit) (s : State), P s -> P (fst (advance p s)).
Proof.
  intros Hstep p. induction p as [a | e | a k IH | c k IH]; intros s Hs; simpl.
  - exact Hs.
  - exact Hs.
  - apply IH, Hstep, Hs.
  - exact Hs.
Qed.

Lemma park_state (ev : UserEvent) (now : State * Stop unit)
  (others : list Task) :
  state (park ev now others) = fst now.
Proof. unfold park. now destruct (snd now). Qed.

Lemma apply_keeps_stack (a : Action) (s : State) :
  stack s <> None -> stack (apply a s) <> None.
Proof. destruct a; simpl; auto. discriminate. Qed.

(** X9. From mount on, through any sequence of events and settling
    promises, a stack is always selected: the state starts with
    [HTML_TAILWIND] and no setter ever clears it.  So the Import Code
    button never answers "Please select your stack": it either asks for
    code or calls [importFromCode]. *)
Theorem stack_always_selected (a : Session) :
  reachable a ->
  (exists st, stack (state a) = Some st) /\
  forall net,
    ~ In (Did (ToastError (JString "Please select your stack")))
         (trace (fire net ClickImport (state a))).
Proof.
  intros Ha.
  assert (Hsome : stack (state a) <> None).
  { induction Ha as [| a b _ IH Hstep]; [discriminate |].
    destruct Hstep as [ev s tasks | net s before t after];
      rewrite park_state; apply advance_keeps; auto using apply_keeps_stack. }
  destruct (stack (state a)) as [st |] eqn:E; [| now elim Hsome].
  split; [now exists st |].
  intros net. unfold fire; simpl handler; unfold doImport. rewrite E.
  destruct (code (state a) =? ""); simpl; intros [H | []]; discriminate.
Qed.

(** *** One scrape at a time *)

Lemma lowers_finally (p : Prog unit) :
  only quiet p -> never_throws p ->
  lowers_flag_last (finally p (act (SetIsScraping false))).
Proof.
  induction p as [[] | e | a k IH | c k IH]; simpl.
  - now split.
  - contradiction.
  - intros [Ha Hk] Hn. destruct a; simpl in *; try discriminate; now apply IH.
  - intros [_ Hk] Hn x. now apply IH.
Qed.

Lemma lowers_advance (p : Prog unit) (s : State) :
  lowers_flag_last p ->
  match snd (advance p s) with
  | Finished r => isScraping (fst (advance p s)) = false /\ r = inr tt
  | Suspended c k =>
      isScraping (fst (advance p s)) = isScraping s /\
      forall x, lowers_flag_last (k x)
  end.
Proof.
  revert s; induction p as [a | e | a k IH | c k IH]; intros s Hp; simpl in *.
  - contradiction.
  - contradiction.
  - destruct a; try exact (IH _ Hp).
    destruct Hp as [-> ->]. now split.
  - now split.
Qed.

Lemma doScrape_dispatch_last (s : State) :
  trim (url s) <> "" ->
  exists k,
    advance (doScrape s) s =
      (apply (SetIsScraping true) s,
       Suspended (Fetch (scrape_request (trim (url s)))) k) /\
    forall x, lowers_flag_last (k x).
Proof.
  intros H. unfold doScrape.
  destruct (trim (url s) =? "") eqn:E; [now apply String.eqb_eq in E |].
  simpl. eexists; split; [reflexivity |].
  intros x. apply lowers_finally.
  - apply only_weaken with (allowed := after_fetch);
      [now intros [[] | []] | apply (on_settled_only x)].
  - apply never_throws_try_catch. exact scrape_catch_never_throws.
Qed.

Lemma scrapes_app (l l' : list Task) :
  scrapes (l ++ l') = scrapes l + scrapes l'.
Proof. unfold scrapes. now rewrite filter_app, length_app. Qed.

Lemma scrapes_one (t : Task) :
  scrapes [t] = if is_scrape (origin t) then 1 else 0.
Proof. unfold scrapes; simpl. now destruct (is_scrape (origin t)). Qed.

Lemma scrapes_middle (before after : list Task) (t : Task) :
  scrapes (before ++ t :: after) =
  scrapes (before ++ after) + if is_scrape (origin t) then 1 else 0.
Proof.
  change (t :: after) with ([t] ++ after).
  rewrite !scrapes_app, scrapes_one. lia.
Qed.

Lemma single_flight_park (ev : UserEvent) (now : State * Stop unit)
  (others : list Task) :
  Forall ui_task_ok others ->
  match snd now with
  | Finished _ =>
      scrapes others = (if isScraping (fst now) then 1 else 0)
  | Suspended c k =>
      ui_task_ok (mkTask ev c k) /\
      scrapes others + (if is_scrape ev then 1 else 0) =
        (if isScraping (fst now) then 1 else 0)
  end ->
  single_flight (park ev now others).
Proof.
  intros Hothers Hnow. unfold park, single_flight.
  destruct now as [s' [r | c k]]; simpl in *.
  - now split.
  - destruct Hnow as [Hk Hcount]. split.
    + apply Forall_app; split; [exact Hothers | now constructor].
    + now rewrite scrapes_app, scrapes_one.
Qed.

Lemma single_flight_step (a b : Session) :
  single_flight a -> ui_step a b -> single_flight b.
Proof.
  intros [Htasks Hcount] Hstep.
  destruct Hstep as [ev s tasks Hfire | net s before t after]; simpl in *.
  - apply single_flight_park; [exact Htasks |].
    destruct (is_scrape ev) eqn:Hev.
    + destruct ev; try discriminate. simpl in Hfire.
      unfold scrape_disabled in Hfire.
      apply negb_true_iff, orb_false_iff in Hfire.
      destruct Hfire as [Hurl Hidle]. apply String.eqb_neq in Hurl.
      simpl handler.
      destruct (doScrape_dispatch_last s Hurl) as [k [-> Hk]]. simpl.
      split; [exact Hk |]. rewrite Hidle in Hcount. lia.
    + destruct (quiet_advance (handler ev s) s (handler_quiet ev s Hev))
        as [Esame Hrest].
      rewrite Esame.
      destruct (snd (advance (handler ev s) s)) as [r | c k]; [exact Hcount |].
      split; [| lia].
      unfold ui_task_ok; simpl. now rewrite Hev.
  - apply Forall_app in Htasks. destruct Htasks as [Hbefore Hrest].
    inversion Hrest as [| t' after' Ht Hafter]; subst.
    rewrite scrapes_middle in Hcount.
    apply single_flight_park; [apply Forall_app; now split |].
    unfold ui_task_ok in Ht. destruct (is_scrape (origin t)) eqn:Hev.
    + pose proof (lowers_advance _ s (Ht (settle net (waiting t)))) as H.
      destruct (snd (advance (resume t (settle net (waiting t))) s))
        as [r | c k].
      * destruct H as [-> _].
        destruct (isScraping s); lia.
      * destruct H as [-> Hk]. split; [| exact Hcount].
        unfold ui_task_ok; simpl. now rewrite Hev.
    + destruct (quiet_advance _ s (Ht (settle net (waiting t)))) as [-> Hk].
      destruct (snd (advance (resume t (settle net (waiting t))) s))
        as [r | c k]; [lia |].
      split; [| lia].
      unfold ui_task_ok; simpl. now rewrite Hev.
Qed.

(** X10. As long as the Scrape HTML button is only clicked while its
    [disabled] prop is false, scrapes never overlap: at every moment at
    most one [doScrape] is waiting for its response or its body, and
    [isScraping] is true exactly when one is.  Other events and pending
    file reads may interleave freely. *)
Theorem one_scrape_at_a_time (a : Session) :
  ui_reachable a ->
  scrapes (inflight a) <= 1 /\
  (isScraping (state a) = true <-> scrapes (inflight a) = 1).
Proof.
  intros Ha.
  assert (H : single_flight a).
  { induction Ha as [| a b _ IH Hstep].
    - split; [constructor | reflexivity].
    - exact (single_flight_step IH Hstep). }
  destruct H as [_ H]. rewrite H.
  destruct (isScraping (state a)); split; try lia; split; congruence.
Qed.

End ImportTab.

Arguments ChangeCode {Stack} v.
Arguments ChangeUrl {Stack} v.
Arguments DragEnter {Stack}.
Arguments DragLeave {Stack}.
Arguments Drop {Stack} acceptedFiles.
Arguments ClickScrape {Stack}.
Arguments ClickImport {Stack}.
Arguments KeyDown {Stack} e.
Arguments SetCode {Stack} v.
Arguments SetUrl {Stack} v.
Arguments SetIsDraggingFile {Stack} b.
Arguments SetIsScraping {Stack} b.
Arguments ToastError {Stack} message.
Arguments ToastSuccess {Stack} message.
Arguments PreventDefault {Stack}.
Arguments SetTimeoutFocus {Stack} ms.
Arguments Called {Stack} c.
Arguments Finished {Stack A} r.

(** ** Examples *)

Module Examples.
Import Sample.

(** [panel buffer address]: the panel with [buffer] in the textarea and
    [address] in the URL field, the default stack selected.  [click]: a
    handler run against the sample backend. *)
Local Abbreviation panel buffer address :=
  (mkState buffer address (Some html_tailwind) false false).
Local Abbreviation click := (@fire Stack backend engine_message).

Lemma doImport_calls_importFromCode_witness :
  click offline ClickImport (panel "<p>hi</p>" "") =
    mkRun (panel "<p>hi</p>" "")
      [Did (ImportFromCode "<p>hi</p>" html_tailwind)] (inr tt) /\
  advance (doImport (panel "<p>hi</p>" "")) (panel "<p>hi</p>" "") =
    (panel "<p>hi</p>" "", Finished (inr tt)).
Proof.
  apply (doImport_calls_importFromCode backend engine_message offline
           (panel "<p>hi</p>" "")).
  - discriminate.
  - reflexivity.
Defined.

Lemma doImport_validation_witness :
  click offline ClickImport (panel "" "") =
    mkRun (panel "" "")
      [Did (ToastError (JString "Please paste in some code"))] (inr tt) /\
  click offline ClickImport (mkState "<p>hi</p>" "" None false false) =
    mkRun (mkState "<p>hi</p>" "" None false false)
      [Did (ToastError (JString "Please select your stack"))] (inr tt).
Proof.
  split.
  - apply (proj1 (doImport_validation backend engine_message offline
                    (panel "" ""))).
    reflexivity.
  - apply (proj2 (doImport_validation backend engine_message offline
                    (mkState "<p>hi</p>" "" None false false))).
    + discriminate.
    + reflexivity.
Defined.

Lemma doImport_does_not_trim_witness :
  trim " " = "" /\
  click offline ClickImport (panel " " "") =
    mkRun (panel " " "") [Did (ImportFromCode " " html_tailwind)] (inr tt).
Proof.
  apply (doImport_does_not_trim backend engine_message offline (panel " " "")).
  - discriminate.
  - reflexivity.
  - reflexivity.
Defined.

Lemma handleKeyDown_shortcut_is_doImport_witness :
  trace (click offline (KeyDown enter_with_ctrl) (panel "<p>hi</p>" "")) =
    Did PreventDefault ::
    trace (click offline ClickImport (panel "<p>hi</p>" "")) /\
  final (click offline (KeyDown enter_with_ctrl) (panel "<p>hi</p>" "")) =
    final (click offline ClickImport (panel "<p>hi</p>" "")) /\
  result (click offline (KeyDown enter_with_ctrl) (panel "<p>hi</p>" "")) =
    result (click offline ClickImport (panel "<p>hi</p>" "")) /\
  filter (@is_notification Stack)
    (trace (click offline (KeyDown enter_with_ctrl) (panel "<p>hi</p>" ""))) =
  filter (@is_notification Stack)
    (trace (click offline ClickImport (panel "<p>hi</p>" ""))).
Proof.
  apply (handleKeyDown_shortcut_is_doImport backend engine_message offline
           (panel "<p>hi</p>" "") enter_with_ctrl).
  - reflexivity.
  - reflexivity.
Defined.

Lemma doScrape_url_check_witness :
  click offline ClickScrape (panel "" "   ") =
    mkRun (panel "" "   ")
      [Did (ToastError (JString "Please enter a URL to scrape"))] (inr tt) /\
  filter (@is_fetch Stack)
    (trace (click offline ClickScrape (panel "" " https://example.com "))) =
    [Called (Fetch
       (mkRequest "http://127.0.0.1:7001/api/scrape-url" "POST"
          [("Content-Type", "application/json")]
          (JObject [("url", JString "https://example.com")])))].
Proof.
  split.
  - apply (proj1 (doScrape_url_check backend engine_message offline
                    (panel "" "   "))).
    reflexivity.
  - apply (proj2 (doScrape_url_check backend engine_message offline
                    (panel "" " https://example.com "))).
    discriminate.
Defined.

Lemma doScrape_success_witness :
  click
    (answers (mkResponse true "OK"
       (Fulfilled (JObject [("content", JString "<html>...</html>")]))))
    ClickScrape (panel "<p>old</p>" "https://example.com") =
  mkRun (panel "<html>...</html>" "https://example.com")
    [Did (SetIsScraping true);
     Called (Fetch (scrape_request backend "https://example.com"));
     Called (ResponseJson (mkResponse true "OK"
       (Fulfilled (JObject [("content", JString "<html>...</html>")]))));
     Did (SetCode "<html>...</html>");
     Did (ToastSuccess
       "Full HTML scraped. Review below and click Import Code when ready.");
     Did (SetIsScraping false)]
    (inr tt).
Proof.
  apply (doScrape_success backend engine_message
           (answers (mkResponse true "OK"
              (Fulfilled (JObject [("content", JString "<html>...</html>")]))))
           (panel "<p>old</p>" "https://example.com")
           (props := [("content", JString "<html>...</html>")])).
  - discriminate.
  - reflexivity.
  - reflexivity.
  - reflexivity.
  - reflexivity.
  - discriminate.
Defined.

Lemma doScrape_invalid_body_witness :
  click
    (answers (mkResponse true "OK" (Fulfilled (JObject [("content", JNumber 7)]))))
    ClickScrape (panel "<p>old</p>" "https://example.com") =
  mkRun (panel "<p>old</p>" "https://example.com")
    [Did (SetIsScraping true);
     Called (Fetch (scrape_request backend "https://example.com"));
     Called (ResponseJson (mkResponse true "OK"
       (Fulfilled (JObject [("content", JNumber 7)]))));
     Did (ToastError (JString "Invalid response from server"));
     Did (SetIsScraping false)]
    (inr tt).
Proof.
  apply (doScrape_invalid_body backend engine_message
           (answers (mkResponse true "OK"
              (Fulfilled (JObject [("content", JNumber 7)]))))
           (panel "<p>old</p>" "https://example.com")
           (parsed := JObject [("content", JNumber 7)])
           (content := Some (JNumber 7))).
  - discriminate.
  - reflexivity.
  - reflexivity.
  - reflexivity.
  - reflexivity.
  - right; left; reflexivity.
Defined.

Lemma doScrape_null_body_witness :
  click (answers (mkResponse true "OK" (Fulfilled JNull)))
    ClickScrape (panel "<p>old</p>" "https://example.com") =
  mkRun (panel "<p>old</p>" "https://example.com")
    [Did (SetIsScraping true);
     Called (Fetch (scrape_request backend "https://example.com"));
     Called (ResponseJson (mkResponse true "OK" (Fulfilled JNull)));
     Did (ToastError (JString
       "Cannot destructure property 'content' of '(intermediate value)' as it is null."));
     Did (SetIsScraping false)]
    (inr tt) /\
  JString
    "Cannot destructure property 'content' of '(intermediate value)' as it is null." <>
  JString "Invalid response from server".
Proof.
  split.
  - apply (doScrape_null_body backend engine_message
             (answers (mkResponse true "OK" (Fulfilled JNull)))
             (panel "<p>old</p>" "https://example.com")
             (response := mkResponse true "OK" (Fulfilled JNull))).
    + discriminate.
    + reflexivity.
    + reflexivity.
    + reflexivity.
  - discriminate.
Defined.

Lemma doScrape_http_error_witness :
  error_toasts
    (trace (click
              (answers (mkResponse false "Bad Request"
                 (Fulfilled (JObject [("detail", JString "bad url")]))))
              ClickScrape (panel "<p>old</p>" "https://example.com"))) =
    [JString "bad url"] /\
  code (final (click
                 (answers (mkResponse false "Bad Request"
                    (Fulfilled (JObject [("detail", JString "bad url")]))))
                 ClickScrape (panel "<p>old</p>" "https://example.com"))) =
    "<p>old</p>".
Proof.
  pose proof (doScrape_http_error backend engine_message
                (answers (mkResponse false "Bad Request"
                   (Fulfilled (JObject [("detail", JString "bad url")]))))
                (panel "<p>old</p>" "https://example.com")
                (response := mkResponse false "Bad Request"
                   (Fulfilled (JObject [("detail", JString "bad url")])))
                ltac:(discriminate) eq_refl eq_refl) as H.
  cbv zeta in H. destruct H as [Hcode [Hparsed _]].
  split; [| exact Hcode].
  destruct (Hparsed (JObject [("detail", JString "bad url")]) eq_refl
              ltac:(discriminate)) as [detail [Hread [Htruthy _]]].
  apply (Htruthy (JString "bad url")); [| reflexivity].
  simpl in Hread. now injection Hread as <-.
Defined.

(** C6 as stated fails where [err.detail || ...] takes its fallback: on a
    body whose [detail] is the empty string, and on a body that does not
    parse when [statusText] is empty, the message is "Failed to scrape
    URL", neither the [detail] nor the status text. *)
Lemma doScrape_http_error_counterexample :
  error_toasts
    (trace (click
              (answers (mkResponse false "Bad Request"
                 (Fulfilled (JObject [("detail", JString "")]))))
              ClickScrape (panel "<p>old</p>" "https://example.com"))) =
    [JString "Failed to scrape URL"] /\
  error_toasts
    (trace (click
              (answers (mkResponse false ""
                 (Rejected (ErrorObject "Unexpected token '<'"))))
              ClickScrape (panel "<p>old</p>" "https://example.com"))) =
    [JString "Failed to scrape URL"] /\
  [JString "Failed to scrape URL"] <> [JString ""].
Proof. repeat split; discriminate. Qed.

Lemma onDrop_reads_first_file_witness :
  click offline (Drop [page; mkFile "other.html" (Fulfilled "<p>no</p>")])
    (panel "<p>old</p>" "") =
  mkRun (panel "<p>hi</p>" "")
    [Did (SetIsDraggingFile false);
     Called (FileText page);
     Did (SetCode "<p>hi</p>");
     Did (SetTimeoutFocus 50)]
    (inr tt).
Proof.
  apply (proj1 (onDrop_reads_first_file backend engine_message offline
                  (panel "<p>old</p>" ""))).
  reflexivity.
Defined.

(** A scrape started from the freshly mounted panel, after the URL has
    been typed: the flag is up and the scrape is in flight; once the
    request fails the handler completes with the flag down. *)
Lemma doScrape_resets_isScraping_witness :
  isScraping (final (click offline ClickScrape (panel "" "https://example.com"))) =
    false /\
  scraping
    (park ClickScrape
       (advance
          (handler backend engine_message ClickScrape
             (panel "" "https://example.com"))
          (panel "" "https://example.com"))
       []).
Proof.
  destruct (doScrape_resets_isScraping html_tailwind backend engine_message)
    as [Hrun [Hbusy _]].
  split.
  - apply (Hrun offline (panel "" "https://example.com")). discriminate.
  - apply Hbusy; [| reflexivity].
    apply reachable_step with (a := mkSession (panel "" "https://example.com") []).
    + apply reachable_step with (a := mkSession (initial html_tailwind) []).
      * apply reachable_mount.
      * exact (step_event backend engine_message
                 (ChangeUrl "https://example.com") (initial html_tailwind) []).
    + exact (step_event backend engine_message ClickScrape
               (panel "" "https://example.com") []).
Defined.

Lemma handleKeyDown_other_keys_witness :
  click offline (KeyDown (mkKeyboardEvent "Enter" false false))
    (panel "<p>hi</p>" "") =
  mkRun (panel "<p>hi</p>" "") [] (inr tt).
Proof.
  apply (handleKeyDown_other_keys backend engine_message offline
           (panel "<p>hi</p>" "") (mkKeyboardEvent "Enter" false false)).
  right. split; reflexivity.
Defined.

Lemma doScrape_fetch_rejected_witness :
  click offline ClickScrape (panel "<p>old</p>" "https://example.com") =
  mkRun (panel "<p>old</p>" "https://example.com")
    [Did (SetIsScraping true);
     Called (Fetch (scrape_request backend "https://example.com"));
     Did (ToastError (JString "Failed to fetch"));
     Did (SetIsScraping false)]
    (inr tt).
Proof.
  apply (doScrape_fetch_rejected backend engine_message offline
           (panel "<p>old</p>" "https://example.com")
           (e := ErrorObject "Failed to fetch")).
  - discriminate.
  - reflexivity.
Defined.

Lemma doScrape_unparseable_body_witness :
  click
    (answers (mkResponse true "OK"
       (Rejected (ErrorObject "Unexpected token '<'"))))
    ClickScrape (panel "<p>old</p>" "https://example.com") =
  mkRun (panel "<p>old</p>" "https://example.com")
    [Did (SetIsScraping true);
     Called (Fetch (scrape_request backend "https://example.com"));
     Called (ResponseJson (mkResponse true "OK"
       (Rejected (ErrorObject "Unexpected token '<'"))));
     Did (ToastError (JString "Unexpected token '<'"));
     Did (SetIsScraping false)]
    (inr tt).
Proof.
  apply (doScrape_unparseable_body backend engine_message
           (answers (mkResponse true "OK"
              (Rejected (ErrorObject "Unexpected token '<'"))))
           (panel "<p>old</p>" "https://example.com")
           (e := ErrorObject "Unexpected token '<'")).
  - discriminate.
  - reflexivity.
  - reflexivity.
  - reflexivity.
Defined.

Lemma doScrape_sends_trimmed_url_witness :
  exists sent c d,
    body (scrape_request backend "https://example.com") =
      JObject [("url", JString sent)] /\
    sent = trim " https://example.com  " /\ sent <> "" /\
    first_char sent = Some c /\ is_space c = false /\
    last_char sent = Some d /\ is_space d = false.
Proof.
  apply (doScrape_sends_trimmed_url backend engine_message offline
           (panel "" " https://example.com  ")
           (scrape_request backend "https://example.com")).
  right; left; reflexivity.
Defined.

Lemma doScrape_success_overwrites_witness :
  code (final
    (run_amid
       (answers (mkResponse true "OK"
          (Fulfilled (JObject [("content", JString "<html>...</html>")]))))
       (fun _ => apply (SetCode "typed meanwhile"))
       (doScrape backend engine_message (panel "<p>old</p>" "https://example.com"))
       (panel "<p>old</p>" "https://example.com"))) =
    "<html>...</html>" /\
  isScraping (final
    (run_amid
       (answers (mkResponse true "OK"
          (Fulfilled (JObject [("content", JString "<html>...</html>")]))))
       (fun _ => apply (SetCode "typed meanwhile"))
       (doScrape backend engine_message (panel "<p>old</p>" "https://example.com"))
       (panel "<p>old</p>" "https://example.com"))) =
    false /\
  result
    (run_amid
       (answers (mkResponse true "OK"
          (Fulfilled (JObject [("content", JString "<html>...</html>")]))))
       (fun _ => apply (SetCode "typed meanwhile"))
       (doScrape backend engine_message (panel "<p>old</p>" "https://example.com"))
       (panel "<p>old</p>" "https://example.com")) =
    inr tt.
Proof.
  apply (doScrape_success_overwrites backend engine_message
           (answers (mkResponse true "OK"
              (Fulfilled (JObject [("content", JString "<html>...</html>")]))))
           (fun _ => apply (SetCode "typed meanwhile"))
           (panel "<p>old</p>" "https://example.com")
           (response := mkResponse true "OK"
              (Fulfilled (JObject [("content", JString "<html>...</html>")])))
           (props := [("content", JString "<html>...</html>")])).
  - discriminate.
  - reflexivity.
  - reflexivity.
  - reflexivity.
  - reflexivity.
  - discriminate.
Defined.

Lemma onDrop_overwrites_witness :
  code (final
    (run_amid offline (fun _ => apply (SetCode "typed meanwhile"))
       (onDrop Stack [page]) (panel "<p>old</p>" ""))) =
    "<p>hi</p>".
Proof.
  apply (onDrop_overwrites offline
           (fun _ => apply (SetCode "typed meanwhile"))
           (panel "<p>old</p>" "") page []).
  reflexivity.
Defined.

Lemma onDrop_unreadable_witness :
  click offline
    (Drop [mkFile "gone.html" (Rejected (ErrorObject "NotFoundError"))])
    (panel "<p>old</p>" "") =
  mkRun (panel "<p>old</p>" "")
    [Did (SetIsDraggingFile false);
     Called (FileText (mkFile "gone.html" (Rejected (ErrorObject "NotFoundError"))))]
    (inl (ErrorObject "NotFoundError")).
Proof.
  apply (onDrop_unreadable backend engine_message offline
           (panel "<p>old</p>" "")
           (mkFile "gone.html" (Rejected (ErrorObject "NotFoundError"))) []).
  reflexivity.
Defined.

Lemma importFromCode_only_on_submit_witness :
  (@ClickImport Stack = ClickImport \/
   exists e, @ClickImport Stack = KeyDown e) /\
  "<p>hi</p>" = code (panel "<p>hi</p>" "") /\
  "<p>hi</p>" <> "" /\
  stack (panel "<p>hi</p>" "") = Some html_tailwind.
Proof.
  apply (importFromCode_only_on_submit backend engine_message offline
           ClickImport (panel "<p>hi</p>" "")).
  left; reflexivity.
Defined.

(** The panel after React has been chosen in the stack selector. *)
Lemma stack_always_selected_witness :
  (exists st,
     stack (mkState "" "" (Some react_tailwind) false false) = Some st) /\
  forall net,
    ~ In (Did (ToastError (JString "Please select your stack")))
         (trace (click net ClickImport
                   (mkState "" "" (Some react_tailwind) false false))).
Proof.
  apply (@stack_always_selected Stack html_tailwind backend engine_message
           (mkSession (mkState "" "" (Some react_tailwind) false false) [])).
  apply reachable_step with (a := mkSession (initial html_tailwind) []).
  - apply reachable_mount.
  - exact (step_event backend engine_message (SelectStack react_tailwind)
             (initial html_tailwind) []).
Defined.

(** The panel right after an enabled Scrape HTML button was clicked. *)
Lemma one_scrape_at_a_time_witness :
  scrapes
    (inflight
       (park ClickScrape
          (advance
             (handler backend engine_message ClickScrape
                (panel "" "https://example.com"))
             (panel "" "https://example.com"))
          [])) <= 1 /\
  (isScraping
     (state
        (park ClickScrape
           (advance
              (handler backend engine_message ClickScrape
                 (panel "" "https://example.com"))
              (panel "" "https://example.com"))
           [])) = true <->
   scrapes
     (inflight
        (park ClickScrape
           (advance
              (handler backend engine_message ClickScrape
                 (panel "" "https://example.com"))
              (panel "" "https://example.com"))
           [])) = 1).
Proof.
  apply (@one_scrape_at_a_time Stack html_tailwind backend engine_message).
  apply ui_next with (a := mkSession (panel "" "https://example.com") []).
  - apply ui_next with (a := mkSession (initial html_tailwind) []).
    + apply ui_mount.
    + exact (ui_event backend engine_message
               (ChangeUrl "https://example.com") (initial html_tailwind) []
               eq_refl).
  - exact (ui_event backend engine_message ClickScrape
             (panel "" "https://example.com") [] eq_refl).
Defined.

End Examples.
